(** * tarot_copilot: the deck session and the reading assembler

    A shallow embedding of [tarot_copilot.py].  The Python module keeps one
    [TarotSession] object (a deck list and a history list), draws cards with
    [secrets.choice] and joins the drawn cards against five JSON tables.

    - Python exceptions are values of [exn]; a computation that may raise
      and that mutates the session lives in the state-and-exception monad
      [Py].
    - [secrets.choice] reads an entropy source.  The source is a section
      variable [entropy : nat -> nat] read at a cursor kept in the state, so
      every statement below holds for every outcome of the random draws.
    - The JSON tables are [gmap]s with [string] keys. *)

From Stdlib Require Import ZArith Lia.
From stdpp Require Import base decidable option list strings pretty gmap fin_maps.

Open Scope string_scope.
Open Scope list_scope.
Open Scope nat_scope.

(** ** Exceptions *)

Inductive exn : Type :=
| ValueError (msg : string)
| IndexError (msg : string)
| KeyError (key : string).

(** ** Reference tables

    The five tables are loaded from JSON files at import time.  Their
    contents are not part of the module, so they are a parameter of every
    function that reads them.  A layout is a JSON object; the code reads its
    ["positions"] member. *)

Record Tables : Type := {
  tarot_card_meanings : gmap string (gmap string string);
  spread_layouts : gmap string (gmap string (list string));
  numerology_data : gmap string string;
  color_theory_data : gmap string string;
  hidden_meanings_data : gmap string string
}.

(** [d.get(k, dflt)] *)
Definition dict_get {V : Type} (d : gmap string V) (k : string) (dflt : V) : V :=
  match d !! k with
  | Some v => v
  | None => dflt
  end.

(** ** Interpretation lookups *)

Definition interpret_card (T : Tables) (card orientation : string) : string :=
  let meaning :=
    dict_get (dict_get (tarot_card_meanings T) card ∅) orientation "No meaning found." in
  meaning.

(** The three card-keyed lookups are the right-hand sides of lines 119-121
    of [create_reading]. *)
Definition hidden_symbols (T : Tables) (card : string) : string :=
  dict_get (hidden_meanings_data T) card "No hidden symbols found.".

Definition numerology (T : Tables) (card : string) : string :=
  dict_get (numerology_data T) card "No numerology found.".

Definition color_theory (T : Tables) (card : string) : string :=
  dict_get (color_theory_data T) card "No color theory found.".

(** ** Reading records *)

Record CardReading : Type := {
  Position : string;
  Card : string;
  Orientation : string;
  Meaning : string;
  Hidden_Symbols : string;
  Numerology : string;
  Color_Theory : string
}.

(** The body of the [for] loop of [create_reading], from index [i] on:
    [reading] is the list built so far. *)
Fixpoint reading_loop (T : Tables) (positions : list string) (i : nat)
    (drawn_cards : list (string * string)) (reading : list CardReading)
    : exn + list CardReading :=
  match drawn_cards with
  | [] => inr reading
  | (card, orientation) :: rest =>
      match positions !! i with
      | None => inl (IndexError "list index out of range")
      | Some position_meaning =>
          let meaning := interpret_card T card orientation in
          reading_loop T positions (S i) rest
            (reading ++ [ {| Position := position_meaning;
                             Card := card;
                             Orientation := orientation;
                             Meaning := meaning;
                             Hidden_Symbols := hidden_symbols T card;
                             Numerology := numerology T card;
                             Color_Theory := color_theory T card |} ])
      end
  end.

(** [layout['positions']] *)
Definition layout_positions (layout : gmap string (list string)) : exn + list string :=
  match layout !! "positions" with
  | Some ps => inr ps
  | None => inl (KeyError "positions")
  end.

Definition create_reading (T : Tables) (drawn_cards : list (string * string))
    (layout_name : string) : exn + list CardReading :=
  match spread_layouts T !! layout_name with
  | None =>
      (* [not None] *)
      inl (ValueError ("Layout '" +:+ layout_name +:+ "' is not defined."))
  | Some layout =>
      if bool_decide (layout = ∅) then
        (* [not {}] *)
        inl (ValueError ("Layout '" +:+ layout_name +:+ "' is not defined."))
      else
        match layout_positions layout with
        | inl e => inl e
        | inr positions =>
            if negb (length drawn_cards =? length positions) then
              inl (ValueError (layout_name +:+ " layout requires exactly "
                               +:+ pretty (length positions) +:+ " cards."))
            else reading_loop T positions 0 drawn_cards []
        end
  end.

(** ** The session

    [deck] is the list of cards not yet drawn, [drawn_cards] the history. *)

Record TarotSession : Type := {
  deck : list string;
  drawn_cards : list (string * string)
}.

(** The state a call can touch: the session object, the lines printed so
    far, and the number of values already read from the entropy source. *)
Record World : Type := {
  self : TarotSession;
  stdout : list string;
  cursor : nat
}.

(** State and exceptions: a raised exception keeps the state reached. *)
Definition Py (A : Type) : Type := World -> (exn + A) * World.

Definition ret {A : Type} (a : A) : Py A := fun w => (inr a, w).

Definition raise {A : Type} (e : exn) : Py A := fun w => (inl e, w).

Definition bind {A B : Type} (m : Py A) (k : A -> Py B) : Py B :=
  fun w =>
    match m w with
    | (inr a, w') => k a w'
    | (inl e, w') => (inl e, w')
    end.

Notation "x <-- m ;; k" := (bind m (fun x => k))
  (at level 100, m at next level, right associativity).
Notation "m ;;; k" := (bind m (fun _ => k))
  (at level 100, right associativity).

Definition get_deck : Py (list string) := fun w => (inr (deck (self w)), w).

Definition set_deck (d : list string) : Py unit :=
  fun w => (inr tt, {| self := {| deck := d; drawn_cards := drawn_cards (self w) |};
                       stdout := stdout w; cursor := cursor w |}).

Definition set_drawn_cards (h : list (string * string)) : Py unit :=
  fun w => (inr tt, {| self := {| deck := deck (self w); drawn_cards := h |};
                       stdout := stdout w; cursor := cursor w |}).

(** [print(line)] *)
Definition print (line : string) : Py unit :=
  fun w => (inr tt, {| self := self w; stdout := stdout w ++ [line]; cursor := cursor w |}).

(** [l.remove(x)] on a Python list: drops the first item equal to [x];
    [None] stands for the [ValueError] raised when there is none. *)
Fixpoint list_remove (x : string) (l : list string) : option (list string) :=
  match l with
  | [] => None
  | y :: l' => if decide (y = x) then Some l' else (y ::.) <$> list_remove x l'
  end.

(** [self.deck.remove(card)] *)
Definition deck_remove (card : string) : Py unit :=
  d <-- get_deck ;;
  match list_remove card d with
  | Some d' => set_deck d'
  | None => raise (ValueError "list.remove(x): x not in list")
  end.

(** [self.drawn_cards.append(p)] *)
Definition drawn_cards_append (p : string * string) : Py unit :=
  fun w => set_drawn_cards (drawn_cards (self w) ++ [p]) w.

(** The 78 identifiers [reset_deck] assigns, in the order of the source. *)
Definition full_deck : list string := [
  "The Fool"; "The Magician"; "The High Priestess"; "The Empress"; "The Emperor";
  "The Hierophant"; "The Lovers"; "The Chariot"; "Strength"; "The Hermit";
  "Wheel of Fortune"; "Justice"; "The Hanged Man"; "Death"; "Temperance";
  "The Devil"; "The Tower"; "The Star"; "The Moon"; "The Sun";
  "Judgement"; "The World"; "Ace of Wands"; "Two of Wands"; "Three of Wands";
  "Four of Wands"; "Five of Wands"; "Six of Wands"; "Seven of Wands"; "Eight of Wands";
  "Nine of Wands"; "Ten of Wands"; "Page of Wands"; "Knight of Wands"; "Queen of Wands";
  "King of Wands"; "Ace of Cups"; "Two of Cups"; "Three of Cups"; "Four of Cups";
  "Five of Cups"; "Six of Cups"; "Seven of Cups"; "Eight of Cups"; "Nine of Cups";
  "Ten of Cups"; "Page of Cups"; "Knight of Cups"; "Queen of Cups"; "King of Cups";
  "Ace of Swords"; "Two of Swords"; "Three of Swords"; "Four of Swords"; "Five of Swords";
  "Six of Swords"; "Seven of Swords"; "Eight of Swords"; "Nine of Swords"; "Ten of Swords";
  "Page of Swords"; "Knight of Swords"; "Queen of Swords"; "King of Swords";
  "Ace of Pentacles"; "Two of Pentacles"; "Three of Pentacles"; "Four of Pentacles";
  "Five of Pentacles"; "Six of Pentacles"; "Seven of Pentacles"; "Eight of Pentacles";
  "Nine of Pentacles"; "Ten of Pentacles"; "Page of Pentacles"; "Knight of Pentacles";
  "Queen of Pentacles"; "King of Pentacles"
].

(** The deck by kind: the first 22 identifiers are the major cards, the
    other 56 are every rank of every suit. *)
Definition major_arcana : list string := take 22 full_deck.

Definition suits : list string := ["Wands"; "Cups"; "Swords"; "Pentacles"].

Definition ranks : list string :=
  ["Ace"; "Two"; "Three"; "Four"; "Five"; "Six"; "Seven"; "Eight"; "Nine"; "Ten";
   "Page"; "Knight"; "Queen"; "King"].

Definition minor_arcana : list string :=
  suit ← suits; rank ← ranks; [rank +:+ " of " +:+ suit].

Definition reset_deck : Py unit :=
  fun w => (inr tt, {| self := {| deck := full_deck; drawn_cards := [] |};
                       stdout := stdout w; cursor := cursor w |}).

(** [TarotSession()] *)
Definition TarotSession_init : Py unit := reset_deck.

Section Draw.

(** The entropy source behind the [secrets] module: the [i]-th value it
    hands out is [entropy i]. *)
Variable entropy : nat -> nat.

(** [secrets.choice(seq)] is [seq[randbelow(len(seq))]] and raises
    [IndexError] on an empty sequence. *)
Definition secrets_choice {A : Type} (seq : list A) : Py A :=
  fun w =>
    let w' := {| self := self w; stdout := stdout w; cursor := S (cursor w) |} in
    match seq with
    | [] => (inl (IndexError "Cannot choose from an empty sequence"), w)
    | _ :: _ =>
        match seq !! (entropy (cursor w) mod length seq) with
        | Some x => (inr x, w')
        | None => (inl (IndexError "list index out of range"), w')
        end
    end.

(** The [for _ in range(...)] loop of [draw_cards] with [k] iterations
    left; [drawn] is the local list [drawn_cards] built so far. *)
Fixpoint draw_loop (k : nat) (drawn : list (string * string))
    : Py (list (string * string)) :=
  match k with
  | O => ret drawn
  | S k' =>
      d <-- get_deck ;;
      if length d =? 0 then
        print "No more cards to draw." ;;;
        ret drawn  (* break *)
      else
        card <-- secrets_choice d ;;
        deck_remove card ;;;
        card_orientation <-- secrets_choice ["Upright"; "Reversed"] ;;
        drawn_cards_append (card, card_orientation) ;;;
        draw_loop k' (drawn ++ [(card, card_orientation)])
  end.

(** [range(n)] is empty for [n <= 0]. *)
Definition draw_cards (number_of_cards : Z) : Py (list (string * string)) :=
  draw_loop (Z.to_nat number_of_cards) [].

End Draw.

(** ** The script (lines 146-165)

    [layout_choice] and [question] are what [get_user_input] returned. *)

(** The seven [print] calls of the body of [for card_reading in reading]. *)
Definition print_card_reading (card_reading : CardReading) : Py unit :=
  print ("Position: " +:+ Position card_reading) ;;;
  print ("Card: " +:+ Card card_reading +:+ " (" +:+ Orientation card_reading +:+ ")") ;;;
  print ("Meaning: " +:+ Meaning card_reading) ;;;
  print ("Hidden Symbols: " +:+ Hidden_Symbols card_reading) ;;;
  print ("Numerology: " +:+ Numerology card_reading) ;;;
  print ("Color Theory: " +:+ Color_Theory card_reading) ;;;
  print "----------".

Fixpoint print_reading (reading : list CardReading) : Py unit :=
  match reading with
  | [] => ret tt
  | card_reading :: rest => print_card_reading card_reading ;;; print_reading rest
  end.

(** The first line printed: a non-empty [question] is truthy. *)
Definition reading_header (question : string) : string :=
  match question with
  | EmptyString => "Reading:"
  | String _ _ => "Reading for your question/focus: '" +:+ question +:+ "'"
  end.

Definition main_script (T : Tables) (entropy : nat -> nat)
    (layout_choice question : string) : Py unit :=
  TarotSession_init ;;;
  match spread_layouts T !! layout_choice with
  | None => print ("Layout '" +:+ layout_choice +:+ "' is not defined.")
  | Some layout =>
      if bool_decide (layout = ∅) then
        print ("Layout '" +:+ layout_choice +:+ "' is not defined.")
      else
        match layout_positions layout with
        | inl e => raise e
        | inr positions =>
            drawn_cards <-- draw_cards entropy (Z.of_nat (length positions)) ;;
            match create_reading T drawn_cards layout_choice with
            | inl e => raise e
            | inr reading =>
                print (reading_header question) ;;;
                print_reading reading
            end
        end
  end.

(** * Definitions used in the statements *)

(** The state after [n] reads of the random source. *)
Definition advance (n : nat) (w : World) : World :=
  {| self := self w; stdout := stdout w; cursor := n + cursor w |}.

(** ** What a run of the loop does *)

Definition orientation_ok (p : string * string) : Prop :=
  p.2 = "Upright" \/ p.2 = "Reversed".

(** What [k] iterations started in [w] do: [picked] is what they append to
    the local list and to the history, [w'] the state they leave. *)
Definition draws_from (w : World) (k : nat) (picked : list (string * string))
    (w' : World) : Prop :=
  length picked = min k (length (deck (self w))) /\
  deck (self w) ≡ₚ picked.*1 ++ deck (self w') /\
  drawn_cards (self w') = drawn_cards (self w) ++ picked /\
  Forall orientation_ok picked /\
  stdout w' = stdout w ++ (if length (deck (self w)) <? k
                           then ["No more cards to draw."] else []) /\
  cursor w' = 2 * length picked + cursor w.

(** ** Sequences of calls *)

Fixpoint draw_sequence (entropy : nat -> nat) (ns : list Z)
    : Py (list (list (string * string))) :=
  match ns with
  | [] => ret []
  | n :: ns' =>
      r <-- draw_cards entropy n ;;
      rs <-- draw_sequence entropy ns' ;;
      ret (r :: rs)
  end.

(** Number of iterations a list of requests asks for. *)
Definition requested (ns : list Z) : nat :=
  foldr (fun n acc => Z.to_nat n + acc) 0 ns.

Definition sum_sizes (ns : list Z) : Z := foldr Z.add 0%Z ns.

(** ** The deck invariant *)

Definition session_inv (s : TarotSession) : Prop :=
  deck s ++ (drawn_cards s).*1 ≡ₚ full_deck.

(** States a caller can reach: a fresh or reset session, then any calls of
    [draw_cards], each with any outcome of the random source. *)
Inductive reachable : World -> Prop :=
| reachable_reset (w : World) : reachable (reset_deck w).2
| reachable_draw (entropy : nat -> nat) (n : Z) (w : World) :
    reachable w -> reachable (draw_cards entropy n w).2.

(** The record the loop appends for one position and one drawn pair. *)
Definition reading_record (T : Tables) (position : string) (p : string * string)
    : CardReading :=
  {| Position := position;
     Card := p.1;
     Orientation := p.2;
     Meaning := interpret_card T p.1 p.2;
     Hidden_Symbols := hidden_symbols T p.1;
     Numerology := numerology T p.1;
     Color_Theory := color_theory T p.1 |}.

(** Whether a message shows the decimal numeral of [n]. *)
Definition mentions_count (msg : string) (n : nat) : bool :=
  match String.index 0 (pretty n) msg with
  | Some _ => true
  | None => false
  end.

(** ** Sample data *)

Definition ex_tables : Tables := {|
  tarot_card_meanings :=
    {[ "The Fool" := {[ "Upright" := "New beginnings."; "Reversed" := "Recklessness." ]};
       "Death" := {[ "Upright" := "Endings." ]} ]};
  spread_layouts :=
    {[ "three_card" := {[ "positions" := ["Past"; "Present"; "Future"] ]} ]};
  numerology_data := {[ "The Fool" := "0" ]};
  color_theory_data := {[ "The Sun" := "Yellow" ]};
  hidden_meanings_data := ∅
|}.

Definition ex_three_card_layout : gmap string (list string) :=
  {[ "positions" := ["Past"; "Present"; "Future"] ]}.

Definition ex_drawn : list (string * string) :=
  [("The Fool", "Upright"); ("Death", "Reversed"); ("The Sun", "Upright")].

Definition ex_entropy (i : nat) : nat := 7 * i + 3.

Definition ex_world : World :=
  {| self := {| deck := ["Death"; "The Sun"]; drawn_cards := [("The Fool", "Upright")] |};
     stdout := [];
     cursor := 0 |}.

(** ** The script's output *)

(** The lines the script prints for one record. *)
Definition reading_lines (r : CardReading) : list string :=
  [ "Position: " +:+ Position r;
    "Card: " +:+ Card r +:+ " (" +:+ Orientation r +:+ ")";
    "Meaning: " +:+ Meaning r;
    "Hidden Symbols: " +:+ Hidden_Symbols r;
    "Numerology: " +:+ Numerology r;
    "Color Theory: " +:+ Color_Theory r;
    "----------" ].

(** [w] with [lines] printed after what it already shows. *)
Definition printed (lines : list string) (w : World) : World :=
  {| self := self w; stdout := stdout w ++ lines; cursor := cursor w |}.

Definition fresh_session : TarotSession :=
  {| deck := full_deck; drawn_cards := [] |}.

(** A table with a layout of 80 positions, an empty layout object and a
    layout object without positions. *)
Definition ex_odd_tables : Tables := {|
  tarot_card_meanings := ∅;
  spread_layouts :=
    {[ "everything" := {[ "positions" := replicate 80 "Card" ]};
       "blank" := ∅;
       "untitled" := {[ "title" := ["Untitled"] ]} ]};
  numerology_data := ∅;
  color_theory_data := ∅;
  hidden_meanings_data := ∅
|}.

(** * Lemmas *)

(** ** The primitives *)

Lemma list_remove_elem (x : string) (l : list string) :
  x ∈ l -> exists l', list_remove x l = Some l' /\ l ≡ₚ x :: l'.
Proof.
  induction l as [|y l IH]; intros Hin.
  - by apply elem_of_nil in Hin.
  - simpl. destruct (decide (y = x)) as [->|Hne].
    + by exists l.
    + apply elem_of_cons in Hin as [Heq|Hin]; [congruence|].
      destruct (IH Hin) as (l' & -> & Hperm).
      exists (y :: l'). split; [done|].
      rewrite Hperm. apply Permutation_swap.
Qed.

Lemma list_remove_length (x : string) (l l' : list string) :
  list_remove x l = Some l' -> length l = S (length l').
Proof.
  revert l'. induction l as [|y l IH]; intros l'; simpl; [done|].
  destruct (decide (y = x)); [by intros [= ->]|].
  destruct (list_remove x l) as [l0|]; simpl; [|done].
  intros [= <-]. simpl. f_equal. by apply IH.
Qed.

Section DrawFacts.

Variable entropy : nat -> nat.

Lemma secrets_choice_nonempty {A : Type} (seq : list A) (w : World) :
  seq <> [] ->
  exists x, x ∈ seq /\ secrets_choice entropy seq w = (inr x, advance 1 w).
Proof.
  intros Hne. unfold secrets_choice.
  destruct seq as [|a seq]; [done|].
  assert (Hlt : entropy (cursor w) mod length (a :: seq) < length (a :: seq)).
  { apply Nat.mod_upper_bound. simpl. lia. }
  destruct (lookup_lt_is_Some_2 _ _ Hlt) as [x Hx].
  rewrite Hx. exists x. split; [|done].
  by eapply list_elem_of_lookup_2.
Qed.

(** One iteration of the loop on a deck that still holds a card. *)
Lemma draw_loop_step (k : nat) (acc : list (string * string)) (w : World) :
  deck (self w) <> [] ->
  exists card o d',
    card ∈ deck (self w) /\
    (o = "Upright" \/ o = "Reversed") /\
    list_remove card (deck (self w)) = Some d' /\
    draw_loop entropy (S k) acc w
    = draw_loop entropy k (acc ++ [(card, o)])
        {| self := {| deck := d';
                      drawn_cards := drawn_cards (self w) ++ [(card, o)] |};
           stdout := stdout w;
           cursor := S (S (cursor w)) |}.
Proof.
  intros Hne.
  destruct (secrets_choice_nonempty (deck (self w)) w Hne) as (card & Hin & Hc).
  destruct (list_remove_elem card _ Hin) as (d' & Hrm & _).
  set (w1 := {| self := {| deck := d'; drawn_cards := drawn_cards (self w) |};
                stdout := stdout w; cursor := S (cursor w) |}).
  destruct (secrets_choice_nonempty ["Upright"; "Reversed"] w1 ltac:(done))
    as (o & Ho & Hc2).
  exists card, o, d'. split; [done|]. split.
  { apply elem_of_cons in Ho as [->|Ho]; [by left|].
    apply elem_of_cons in Ho as [->|Ho]; [by right|].
    by apply elem_of_nil in Ho. }
  split; [done|].
  simpl. unfold bind at 1. unfold get_deck at 1.
  destruct (deck (self w)) as [|c d] eqn:Hd; [done|].
  change (length (c :: d) =? 0) with false. cbv iota.
  unfold bind at 1. rewrite Hc.
  unfold bind at 1. unfold deck_remove, bind at 1, get_deck. simpl.
  rewrite Hd, Hrm. unfold set_deck. simpl.
  fold w1. unfold bind at 1. rewrite Hc2.
  unfold bind at 1. unfold drawn_cards_append, set_drawn_cards. simpl.
  done.
Qed.

(** One iteration on an empty deck: the message is printed and the loop
    is left. *)
Lemma draw_loop_empty (k : nat) (acc : list (string * string)) (w : World) :
  deck (self w) = [] ->
  draw_loop entropy (S k) acc w
  = (inr acc, {| self := self w;
                 stdout := stdout w ++ ["No more cards to draw."];
                 cursor := cursor w |}).
Proof.
  intros Hd. simpl. unfold bind at 1. unfold get_deck. rewrite Hd. done.
Qed.

End DrawFacts.

(** ** Two runs *)

Example draw_three_from_full_deck :
  (draw_cards ex_entropy 3 (reset_deck ex_world).2).1
  = inr [("The Empress", "Upright"); ("The Moon", "Upright");
         ("Knight of Wands", "Upright")].
Proof. reflexivity. Qed.

Example draw_five_from_two :
  draw_cards ex_entropy 5 ex_world
  = (inr [("The Sun", "Upright"); ("Death", "Upright")],
     {| self := {| deck := [];
                   drawn_cards := [("The Fool", "Upright"); ("The Sun", "Upright");
                                   ("Death", "Upright")] |};
        stdout := ["No more cards to draw."];
        cursor := 4 |}).
Proof. reflexivity. Qed.

(** ** The loop and the calls *)

Lemma draw_loop_spec (entropy : nat -> nat) (k : nat) :
  forall (acc : list (string * string)) (w : World),
  exists picked w',
    draw_loop entropy k acc w = (inr (acc ++ picked), w') /\
    draws_from w k picked w'.
Proof.
  induction k as [|k IH]; intros acc w.
  - exists [], w. split; [by rewrite app_nil_r|].
    repeat split; simpl; rewrite ?app_nil_r; auto.
  - destruct (decide (deck (self w) = [])) as [Hd|Hd].
    + rewrite (draw_loop_empty entropy k acc w Hd).
      eexists [], _. split; [by rewrite app_nil_r|].
      repeat split; simpl; rewrite ?Hd, ?app_nil_r; simpl; auto.
    + destruct (draw_loop_step entropy k acc w Hd)
        as (card & o & d' & Hin & Ho & Hrm & ->).
      pose proof (list_remove_length _ _ _ Hrm) as Hlen.
      destruct (list_remove_elem _ _ Hin) as (d'' & Hrm' & Hperm).
      rewrite Hrm in Hrm'. injection Hrm' as <-.
      match goal with |- context [draw_loop _ _ _ ?w1] => set (w1' := w1) end.
      destruct (IH (acc ++ [(card, o)]) w1')
        as (picked & w' & Heq & Hl & Hp & Hh & Ho' & Hs & Hc).
      exists ((card, o) :: picked), w'. split.
      { rewrite Heq. by rewrite <- app_assoc. }
      subst w1'. simpl in *.
      repeat split.
      * simpl. rewrite Hl, Hlen. reflexivity.
      * simpl. rewrite Hperm. by constructor.
      * rewrite Hh. by rewrite <- app_assoc.
      * by constructor.
      * rewrite Hs, Hlen. reflexivity.
      * simpl. lia.
Qed.

Lemma draw_cards_spec (entropy : nat -> nat) (n : Z) (w : World) :
  exists picked w',
    draw_cards entropy n w = (inr picked, w') /\
    draws_from w (Z.to_nat n) picked w'.
Proof.
  destruct (draw_loop_spec entropy (Z.to_nat n) [] w) as (picked & w' & H & Hd).
  exists picked, w'. split; [exact H | exact Hd].
Qed.

Lemma requested_sum_sizes (ns : list Z) :
  Forall (fun n => (0 <= n)%Z) ns -> Z.of_nat (requested ns) = sum_sizes ns.
Proof.
  induction 1 as [|n ns Hn _ IH]; [done|].
  unfold sum_sizes in *. simpl. rewrite <- IH. lia.
Qed.

Lemma draw_sequence_spec (entropy : nat -> nat) (ns : list Z) :
  forall w : World,
  exists rs w',
    draw_sequence entropy ns w = (inr rs, w') /\
    length rs = length ns /\
    deck (self w) ≡ₚ (concat rs).*1 ++ deck (self w') /\
    drawn_cards (self w') = drawn_cards (self w) ++ concat rs /\
    length (concat rs) = min (requested ns) (length (deck (self w))).
Proof.
  induction ns as [|n ns IH]; intros w.
  - exists [], w. simpl. rewrite app_nil_r. repeat split; auto.
  - destruct (draw_cards_spec entropy n w)
      as (r & w1 & Hr & Hl & Hp & Hh & _ & _ & _).
    destruct (IH w1) as (rs & w' & Hrs & Hn & Hp' & Hh' & Hl').
    exists (r :: rs), w'. simpl. unfold bind at 1. rewrite Hr.
    unfold bind at 1. rewrite Hrs. split; [done|].
    split; [simpl; by rewrite Hn|].
    split; [|split].
    + rewrite fmap_app, <- app_assoc, <- Hp'. exact Hp.
    + rewrite Hh', Hh. by rewrite <- app_assoc.
    + rewrite length_app, Hl', Hl.
      apply Permutation_length in Hp.
      rewrite length_app, length_fmap, Hl in Hp. lia.
Qed.

(** ** The deck invariant *)

Lemma full_deck_NoDup : NoDup full_deck.
Proof. compute_done. Qed.

Lemma full_deck_length : length full_deck = 78.
Proof. reflexivity. Qed.

Lemma session_inv_reset (w : World) : session_inv (self (reset_deck w).2).
Proof.
  unfold session_inv. change (full_deck ++ [] ≡ₚ full_deck).
  by rewrite app_nil_r.
Qed.

Lemma session_inv_draws (w w' : World) (picked : list (string * string)) :
  deck (self w) ≡ₚ picked.*1 ++ deck (self w') ->
  drawn_cards (self w') = drawn_cards (self w) ++ picked ->
  session_inv (self w) -> session_inv (self w').
Proof.
  unfold session_inv. intros Hp Hh Hinv.
  rewrite Hh, fmap_app. rewrite <- Hinv, Hp.
  rewrite <- !app_assoc.
  rewrite (Permutation_app_comm (picked.*1) (deck (self w') ++ _)).
  rewrite <- !app_assoc. reflexivity.
Qed.

Lemma session_inv_facts (s : TarotSession) :
  session_inv s ->
  NoDup (deck s) /\ NoDup (drawn_cards s).*1 /\
  (forall c, c ∈ (drawn_cards s).*1 -> c ∉ deck s) /\
  length (deck s) + length (drawn_cards s) = 78.
Proof.
  unfold session_inv. intros Hinv.
  pose proof full_deck_NoDup as Hnd. rewrite <- Hinv in Hnd.
  apply NoDup_app in Hnd as (Hd & Hdisj & Hh).
  repeat split; auto.
  - intros c Hc Hin. exact (Hdisj c Hin Hc).
  - apply Permutation_length in Hinv.
    rewrite length_app, length_fmap, full_deck_length in Hinv. exact Hinv.
Qed.

Lemma reachable_inv (w : World) : reachable w -> session_inv (self w).
Proof.
  induction 1 as [w|entropy n w _ IH].
  - apply session_inv_reset.
  - destruct (draw_cards_spec entropy n w) as (picked & w' & -> & _ & Hp & Hh & _).
    simpl. by eapply session_inv_draws.
Qed.

(** ** The reading loop *)

Lemma reading_loop_spec (T : Tables) (positions : list string) :
  forall (drawn : list (string * string)) (i : nat) (acc : list CardReading),
    i + length drawn <= length positions ->
    reading_loop T positions i drawn acc
    = inr (acc ++ zip_with (reading_record T) (drop i positions) drawn).
Proof.
  induction drawn as [|[card o] drawn IH]; intros i acc Hlen.
  - simpl. by rewrite zip_with_nil_r, app_nil_r.
  - simpl in Hlen.
    destruct (lookup_lt_is_Some_2 positions i ltac:(lia)) as [p Hp].
    simpl. rewrite Hp, IH by lia.
    rewrite (drop_S _ _ _ Hp). simpl.
    by rewrite <- app_assoc.
Qed.

Lemma known_layout_nonempty (layout : gmap string (list string)) (ps : list string) :
  layout !! "positions" = Some ps -> bool_decide (layout = ∅) = false.
Proof.
  intros Hp. apply bool_decide_eq_false. intros ->.
  by rewrite lookup_empty in Hp.
Qed.

Lemma create_reading_known (T : Tables) (drawn : list (string * string))
    (name : string) (layout : gmap string (list string)) (ps : list string) :
  spread_layouts T !! name = Some layout ->
  layout !! "positions" = Some ps ->
  create_reading T drawn name
  = if negb (length drawn =? length ps)
    then inl (ValueError (name +:+ " layout requires exactly "
                          +:+ pretty (length ps) +:+ " cards."))
    else reading_loop T ps 0 drawn [].
Proof.
  intros Hl Hp. unfold create_reading, layout_positions.
  by rewrite Hl, (known_layout_nonempty _ _ Hp), Hp.
Qed.

(** * The claims *)

(** C1. From a fresh session, after any sequence of [draw_cards] calls
    with no [reset_deck] in between, no call raises, the history is the
    concatenation of the returned lists and holds no card identifier twice,
    and its length never exceeds 78.  When the requested sizes are
    non-negative its length is their sum as long as that sum is at most 78,
    and 78 from then on (in general a size below zero counts as zero). *)
Theorem draw_history_no_duplicates (entropy : nat -> nat) (w0 : World) (ns : list Z) :
  exists rs w',
    (TarotSession_init ;;; draw_sequence entropy ns) w0 = (inr rs, w') /\
    drawn_cards (self w') = concat rs /\
    NoDup (drawn_cards (self w')).*1 /\
    length (drawn_cards (self w')) = min (requested ns) 78 /\
    (Forall (fun n => (0 <= n)%Z) ns ->
     Z.of_nat (length (drawn_cards (self w'))) = Z.min (sum_sizes ns) 78) /\
    length (drawn_cards (self w')) <= 78.
Proof.
  destruct (draw_sequence_spec entropy ns (reset_deck w0).2)
    as (rs & w' & Hrs & _ & Hp & Hh & Hl).
  exists rs, w'.
  assert (Hinv : session_inv (self w')).
  { eapply session_inv_draws; [exact Hp | exact Hh | apply session_inv_reset]. }
  destruct (session_inv_facts _ Hinv) as (_ & Hnd & _ & Hsum).
  change (drawn_cards (self (reset_deck w0).2)) with (@nil (string * string)) in Hh.
  change (length (deck (self (reset_deck w0).2))) with 78 in Hl.
  simpl in Hh. rewrite Hh in *.
  split; [|split; [|split; [|split; [|split]]]].
  - unfold TarotSession_init, bind. exact Hrs.
  - reflexivity.
  - exact Hnd.
  - exact Hl.
  - intros Hns. rewrite Hl, <- (requested_sum_sizes ns Hns). lia.
  - lia.
Qed.

Lemma draw_history_no_duplicates_witness :
  Forall (fun n => (0 <= n)%Z) [3%Z; 0%Z; 10%Z] /\
  exists rs w',
    (TarotSession_init ;;; draw_sequence ex_entropy [3%Z; 0%Z; 10%Z]) ex_world
    = (inr rs, w') /\
    NoDup (drawn_cards (self w')).*1 /\
    Z.of_nat (length (drawn_cards (self w'))) = 13%Z.
Proof.
  assert (H : Forall (fun n => (0 <= n)%Z) [3%Z; 0%Z; 10%Z]).
  { repeat constructor; lia. }
  split; [exact H|].
  destruct (draw_history_no_duplicates ex_entropy ex_world [3%Z; 0%Z; 10%Z])
    as (rs & w' & Hrun & _ & Hnd & _ & Hlen & _).
  exists rs, w'. split; [exact Hrun|]. split; [exact Hnd|].
  exact (Hlen H).
Defined.

(** C2. In any session state, for [0 <= n <= len(deck)], [draw_cards(n)]
    returns exactly [n] pairs, each with orientation ["Upright"] or
    ["Reversed"]. *)
Theorem draw_cards_exact (entropy : nat -> nat) (w : World) (n : Z) :
  (0 <= n)%Z ->
  (n <= Z.of_nat (length (deck (self w))))%Z ->
  exists res w',
    draw_cards entropy n w = (inr res, w') /\
    Z.of_nat (length res) = n /\
    Forall (fun p => p.2 = "Upright" \/ p.2 = "Reversed") res.
Proof.
  intros H0 Hn.
  destruct (draw_cards_spec entropy n w) as (res & w' & Hr & Hl & _ & _ & Ho & _).
  exists res, w'. split; [exact Hr|]. split; [lia | exact Ho].
Qed.

Lemma draw_cards_exact_witness :
  (0 <= 2)%Z /\
  (2 <= Z.of_nat (length (deck (self ex_world))))%Z /\
  exists res w',
    draw_cards ex_entropy 2 ex_world = (inr res, w') /\
    Z.of_nat (length res) = 2%Z /\
    Forall (fun p => p.2 = "Upright" \/ p.2 = "Reversed") res.
Proof.
  assert (H0 : (0 <= 2)%Z) by lia.
  assert (H1 : (2 <= Z.of_nat (length (deck (self ex_world))))%Z) by (simpl; lia).
  split; [exact H0|]. split; [exact H1|].
  exact (draw_cards_exact ex_entropy ex_world 2 H0 H1).
Defined.

(** C3. For a known layout with as many positions as there are drawn
    pairs, [create_reading] returns one record per pair, in input order; the
    record at index [i] holds the position label at [i], the card and
    orientation at [i] and the four lookups for them.  For positions
    [Past, Present, Future] and the pairs [The Fool/Upright],
    [Death/Reversed], [The Sun/Upright] the first record has position
    ["Past"], card ["The Fool"] and orientation ["Upright"]. *)
Theorem create_reading_records (T : Tables) (drawn : list (string * string))
    (name : string) (layout : gmap string (list string)) (ps : list string) :
  spread_layouts T !! name = Some layout ->
  layout !! "positions" = Some ps ->
  length drawn = length ps ->
  exists reading,
    create_reading T drawn name = inr reading /\
    length reading = length drawn /\
    (forall i card orientation,
        drawn !! i = Some (card, orientation) ->
        exists position,
          ps !! i = Some position /\
          reading !! i = Some {| Position := position;
                                 Card := card;
                                 Orientation := orientation;
                                 Meaning := interpret_card T card orientation;
                                 Hidden_Symbols := hidden_symbols T card;
                                 Numerology := numerology T card;
                                 Color_Theory := color_theory T card |}) /\
    (ps = ["Past"; "Present"; "Future"] ->
     drawn = [("The Fool", "Upright"); ("Death", "Reversed"); ("The Sun", "Upright")] ->
     exists first rest,
       reading = first :: rest /\ length rest = 2 /\
       Position first = "Past" /\ Card first = "The Fool" /\
       Orientation first = "Upright").
Proof.
  intros Hl Hp Hlen.
  exists (zip_with (reading_record T) ps drawn).
  rewrite (create_reading_known T drawn name layout ps Hl Hp).
  rewrite Hlen, Nat.eqb_refl. simpl negb. cbv iota.
  rewrite reading_loop_spec by (simpl; lia).
  split; [done|]. split; [|split].
  - rewrite length_zip_with. lia.
  - intros i card o Hi.
    assert (Hlt : i < length ps).
    { rewrite <- Hlen. by eapply lookup_lt_Some. }
    destruct (lookup_lt_is_Some_2 ps i Hlt) as [p Hpi].
    exists p. split; [done|].
    rewrite lookup_zip_with, Hpi, Hi. reflexivity.
  - intros -> ->. eexists _, _. split; [reflexivity|]. by repeat split.
Qed.

Lemma create_reading_records_witness :
  spread_layouts ex_tables !! "three_card" = Some ex_three_card_layout /\
  ex_three_card_layout !! "positions" = Some ["Past"; "Present"; "Future"] /\
  length ex_drawn = length ["Past"; "Present"; "Future"] /\
  exists reading,
    create_reading ex_tables ex_drawn "three_card" = inr reading /\
    length reading = length ex_drawn.
Proof.
  assert (H1 : spread_layouts ex_tables !! "three_card" = Some ex_three_card_layout)
    by (vm_compute; reflexivity).
  assert (H2 : ex_three_card_layout !! "positions" = Some ["Past"; "Present"; "Future"])
    by (vm_compute; reflexivity).
  assert (H3 : length ex_drawn = length ["Past"; "Present"; "Future"])
    by reflexivity.
  split; [exact H1|]. split; [exact H2|]. split; [exact H3|].
  destruct (create_reading_records ex_tables ex_drawn "three_card"
              ex_three_card_layout ["Past"; "Present"; "Future"] H1 H2 H3)
    as (reading & Hr & Hlen & _).
  exists reading. split; [exact Hr | exact Hlen].
Defined.

(** C4, as the code has it.  For a known layout and a list of drawn pairs
    whose length differs from the number of positions, [create_reading]
    raises a [ValueError] whose message names the layout and the expected
    count; the message is the same whatever the actual count is. *)
Theorem create_reading_count_mismatch (T : Tables) (drawn : list (string * string))
    (name : string) (layout : gmap string (list string)) (ps : list string) :
  spread_layouts T !! name = Some layout ->
  layout !! "positions" = Some ps ->
  length drawn <> length ps ->
  create_reading T drawn name
  = inl (ValueError (name +:+ " layout requires exactly "
                     +:+ pretty (length ps) +:+ " cards.")).
Proof.
  intros Hl Hp Hne.
  rewrite (create_reading_known T drawn name layout ps Hl Hp).
  apply Nat.eqb_neq in Hne. by rewrite Hne.
Qed.

Lemma create_reading_count_mismatch_witness :
  spread_layouts ex_tables !! "three_card" = Some ex_three_card_layout /\
  ex_three_card_layout !! "positions" = Some ["Past"; "Present"; "Future"] /\
  length (take 2 ex_drawn) <> length ["Past"; "Present"; "Future"] /\
  create_reading ex_tables (take 2 ex_drawn) "three_card"
  = inl (ValueError "three_card layout requires exactly 3 cards.").
Proof.
  assert (H1 : spread_layouts ex_tables !! "three_card" = Some ex_three_card_layout)
    by (vm_compute; reflexivity).
  assert (H2 : ex_three_card_layout !! "positions" = Some ["Past"; "Present"; "Future"])
    by (vm_compute; reflexivity).
  assert (H3 : length (take 2 ex_drawn) <> length ["Past"; "Present"; "Future"])
    by (simpl; lia).
  split; [exact H1|]. split; [exact H2|]. split; [exact H3|].
  exact (create_reading_count_mismatch ex_tables (take 2 ex_drawn) "three_card"
           ex_three_card_layout ["Past"; "Present"; "Future"] H1 H2 H3).
Defined.

(** C4, as stated, fails.  With two drawn pairs against the three-position
    layout the message is "three_card layout requires exactly 3 cards.": it
    shows the expected count 3 and not the actual count 2, and it is the
    message a single drawn pair gets as well. *)
Lemma create_reading_mismatch_omits_actual :
  create_reading ex_tables (take 2 ex_drawn) "three_card"
  = inl (ValueError "three_card layout requires exactly 3 cards.") /\
  create_reading ex_tables (take 1 ex_drawn) "three_card"
  = create_reading ex_tables (take 2 ex_drawn) "three_card" /\
  mentions_count "three_card layout requires exactly 3 cards." 3 = true /\
  ~ (exists msg,
        create_reading ex_tables (take 2 ex_drawn) "three_card" = inl (ValueError msg) /\
        mentions_count msg (length ["Past"; "Present"; "Future"]) = true /\
        mentions_count msg (length (take 2 ex_drawn)) = true).
Proof.
  split; [by vm_compute|]. split; [by vm_compute|]. split; [by vm_compute|].
  intros (msg & Hmsg & _ & Hactual).
  vm_compute in Hmsg. injection Hmsg as <-.
  vm_compute in Hactual. discriminate.
Qed.

(** C5. In any session state, for [n] greater than the number of cards
    left, [draw_cards(n)] returns normally with exactly the cards that were
    left (one pair per card), leaves the deck empty, appends the returned
    pairs to the history, prints the notice once and reads the random source
    only for the cards it drew. *)
Theorem draw_cards_exhausts (entropy : nat -> nat) (w : World) (n : Z) :
  (Z.of_nat (length (deck (self w))) < n)%Z ->
  exists res w',
    draw_cards entropy n w = (inr res, w') /\
    length res = length (deck (self w)) /\
    res.*1 ≡ₚ deck (self w) /\
    Forall (fun p => p.2 = "Upright" \/ p.2 = "Reversed") res /\
    deck (self w') = [] /\
    drawn_cards (self w') = drawn_cards (self w) ++ res /\
    stdout w' = stdout w ++ ["No more cards to draw."] /\
    cursor w' = 2 * length (deck (self w)) + cursor w.
Proof.
  intros Hn.
  destruct (draw_cards_spec entropy n w)
    as (res & w' & Hr & Hl & Hp & Hh & Ho & Hs & Hc).
  assert (Hlen : length res = length (deck (self w))) by lia.
  assert (Hempty : deck (self w') = []).
  { apply Permutation_length in Hp.
    rewrite length_app, length_fmap, Hlen in Hp.
    apply length_zero_iff_nil. lia. }
  exists res, w'. rewrite Hempty, app_nil_r in Hp.
  replace (length (deck (self w)) <? Z.to_nat n) with true in Hs
    by (symmetry; apply Nat.ltb_lt; lia).
  rewrite Hlen in Hc. symmetry in Hp.
  repeat split; auto.
Qed.

Lemma draw_cards_exhausts_witness :
  (Z.of_nat (length (deck (self ex_world))) < 5)%Z /\
  exists res w',
    draw_cards ex_entropy 5 ex_world = (inr res, w') /\
    length res = length (deck (self ex_world)) /\
    res.*1 ≡ₚ deck (self ex_world) /\
    Forall (fun p => p.2 = "Upright" \/ p.2 = "Reversed") res /\
    deck (self w') = [] /\
    drawn_cards (self w') = drawn_cards (self ex_world) ++ res /\
    stdout w' = stdout ex_world ++ ["No more cards to draw."] /\
    cursor w' = 2 * length (deck (self ex_world)) + cursor ex_world.
Proof.
  assert (H : (Z.of_nat (length (deck (self ex_world))) < 5)%Z) by (simpl; lia).
  split; [exact H|].
  exact (draw_cards_exhausts ex_entropy ex_world 5 H).
Defined.

(** C6. For a layout name that is not a key of the layout table,
    [create_reading] raises the "is not defined" [ValueError], whatever the
    drawn pairs are. *)
Theorem create_reading_unknown_layout (T : Tables) (drawn : list (string * string))
    (name : string) :
  spread_layouts T !! name = None ->
  create_reading T drawn name
  = inl (ValueError ("Layout '" +:+ name +:+ "' is not defined.")).
Proof. intros Hl. unfold create_reading. by rewrite Hl. Qed.

Lemma create_reading_unknown_layout_witness :
  spread_layouts ex_tables !! "celtic_cross" = None /\
  create_reading ex_tables ex_drawn "celtic_cross"
  = inl (ValueError "Layout 'celtic_cross' is not defined.").
Proof.
  assert (H : spread_layouts ex_tables !! "celtic_cross" = None)
    by (vm_compute; reflexivity).
  split; [exact H|].
  exact (create_reading_unknown_layout ex_tables ex_drawn "celtic_cross" H).
Defined.

(** C7. Each of the four lookups returns a string for every card and
    orientation: the table's text when the key is there, and the table's
    fixed placeholder when it is not (for the meaning, when the card has no
    entry or its entry has none for the orientation). *)
Theorem lookups_fall_back (T : Tables) (card orientation : string) :
  ((tarot_card_meanings T !! card = None \/
    exists m, tarot_card_meanings T !! card = Some m /\ m !! orientation = None) ->
   interpret_card T card orientation = "No meaning found.") /\
  (hidden_meanings_data T !! card = None ->
   hidden_symbols T card = "No hidden symbols found.") /\
  (numerology_data T !! card = None ->
   numerology T card = "No numerology found.") /\
  (color_theory_data T !! card = None ->
   color_theory T card = "No color theory found.") /\
  (forall m text,
      tarot_card_meanings T !! card = Some m -> m !! orientation = Some text ->
      interpret_card T card orientation = text) /\
  (forall text, hidden_meanings_data T !! card = Some text ->
                hidden_symbols T card = text) /\
  (forall text, numerology_data T !! card = Some text ->
                numerology T card = text) /\
  (forall text, color_theory_data T !! card = Some text ->
                color_theory T card = text).
Proof.
  unfold interpret_card, hidden_symbols, numerology, color_theory, dict_get.
  repeat split.
  - intros [->|(m & -> & ->)]; [by rewrite lookup_empty | done].
  - by intros ->.
  - by intros ->.
  - by intros ->.
  - by intros m text -> ->.
  - by intros text ->.
  - by intros text ->.
  - by intros text ->.
Qed.

Lemma lookups_fall_back_witness :
  (tarot_card_meanings ex_tables !! "The Tower" = None /\
   hidden_meanings_data ex_tables !! "The Tower" = None /\
   numerology_data ex_tables !! "The Tower" = None /\
   color_theory_data ex_tables !! "The Tower" = None) /\
  (interpret_card ex_tables "The Tower" "Reversed" = "No meaning found." /\
   hidden_symbols ex_tables "The Tower" = "No hidden symbols found." /\
   numerology ex_tables "The Tower" = "No numerology found." /\
   color_theory ex_tables "The Tower" = "No color theory found.").
Proof.
  assert (H1 : tarot_card_meanings ex_tables !! "The Tower" = None)
    by (vm_compute; reflexivity).
  assert (H2 : hidden_meanings_data ex_tables !! "The Tower" = None)
    by (vm_compute; reflexivity).
  assert (H3 : numerology_data ex_tables !! "The Tower" = None)
    by (vm_compute; reflexivity).
  assert (H4 : color_theory_data ex_tables !! "The Tower" = None)
    by (vm_compute; reflexivity).
  split; [by repeat split|].
  destruct (lookups_fall_back ex_tables "The Tower" "Reversed")
    as (Hm & Hh & Hn & Hc & _).
  split; [exact (Hm (or_introl H1))|].
  split; [exact (Hh H2)|].
  split; [exact (Hn H3) | exact (Hc H4)].
Defined.

(** C8. In any state, [reset_deck()] returns normally and leaves a deck of
    exactly 78 pairwise distinct identifiers, the 22 major cards followed by
    the 56 rank-of-suit cards, and an empty history; it prints nothing and
    reads no randomness. *)
Theorem reset_deck_full (w : World) :
  exists w',
    reset_deck w = (inr tt, w') /\
    deck (self w') = full_deck /\
    length (deck (self w')) = 78 /\
    NoDup (deck (self w')) /\
    deck (self w') = major_arcana ++ minor_arcana /\
    length major_arcana = 22 /\
    length minor_arcana = 56 /\
    drawn_cards (self w') = [] /\
    stdout w' = stdout w /\
    cursor w' = cursor w.
Proof.
  eexists. split; [reflexivity|]. simpl.
  repeat split; auto using full_deck_NoDup.
Qed.

(** C9. In every state reachable from a fresh or reset session by calls
    of [draw_cards], no card of the history is still in the deck, and the
    deck and the history together hold 78 cards. *)
Theorem reachable_deck_history_disjoint (w : World) :
  reachable w ->
  (forall c, c ∈ (drawn_cards (self w)).*1 -> c ∉ deck (self w)) /\
  length (deck (self w)) + length (drawn_cards (self w)) = 78.
Proof.
  intros Hr. apply reachable_inv in Hr.
  destruct (session_inv_facts _ Hr) as (_ & _ & Hdisj & Hlen).
  split; [exact Hdisj | exact Hlen].
Qed.

Lemma reachable_deck_history_disjoint_witness :
  reachable (draw_cards ex_entropy 3 (reset_deck ex_world).2).2 /\
  (forall c,
      c ∈ (drawn_cards (self (draw_cards ex_entropy 3 (reset_deck ex_world).2).2)).*1 ->
      c ∉ deck (self (draw_cards ex_entropy 3 (reset_deck ex_world).2).2)) /\
  length (deck (self (draw_cards ex_entropy 3 (reset_deck ex_world).2).2))
  + length (drawn_cards (self (draw_cards ex_entropy 3 (reset_deck ex_world).2).2)) = 78.
Proof.
  assert (H : reachable (draw_cards ex_entropy 3 (reset_deck ex_world).2).2).
  { apply reachable_draw. apply reachable_reset. }
  split; [exact H|].
  exact (reachable_deck_history_disjoint _ H).
Defined.

(** C10. For [n <= 0], [draw_cards(n)] returns the empty list and changes
    nothing: not the deck, not the history, not the output, not the random
    source. *)
Theorem draw_cards_nonpositive (entropy : nat -> nat) (w : World) (n : Z) :
  (n <= 0)%Z -> draw_cards entropy n w = (inr [], w).
Proof.
  intros Hn. unfold draw_cards.
  replace (Z.to_nat n) with 0 by lia. reflexivity.
Qed.

Lemma draw_cards_nonpositive_witness :
  (-4 <= 0)%Z /\ draw_cards ex_entropy (-4) ex_world = (inr [], ex_world).
Proof.
  assert (H : (-4 <= 0)%Z) by lia.
  split; [exact H|].
  exact (draw_cards_nonpositive ex_entropy ex_world (-4) H).
Defined.

(** * Further properties of the code *)

(** ** [create_reading] *)

Lemma create_reading_inv (T : Tables) (drawn : list (string * string))
    (name : string) (reading : list CardReading) :
  create_reading T drawn name = inr reading ->
  exists layout ps,
    spread_layouts T !! name = Some layout /\
    layout !! "positions" = Some ps /\
    length drawn = length ps /\
    reading = zip_with (reading_record T) ps drawn.
Proof.
  unfold create_reading, layout_positions.
  destruct (spread_layouts T !! name) as [layout|] eqn:Hl; [|done].
  destruct (bool_decide (layout = ∅)); [done|].
  destruct (layout !! "positions") as [ps|] eqn:Hp; [|done].
  destruct (length drawn =? length ps) eqn:Hlen; [|done].
  apply Nat.eqb_eq in Hlen. simpl negb. cbv iota.
  rewrite reading_loop_spec by (simpl; lia). simpl.
  intros [= <-]. by exists layout, ps.
Qed.

Lemma reading_record_positions (T : Tables) (ps : list string)
    (drawn : list (string * string)) :
  length drawn = length ps ->
  Position <$> zip_with (reading_record T) ps drawn = ps.
Proof.
  revert ps. induction drawn as [|[card o] drawn IH]; intros [|p ps] Hlen; try done.
  simpl. f_equal. apply IH. simpl in Hlen. lia.
Qed.

Lemma reading_record_pairs (T : Tables) (ps : list string)
    (drawn : list (string * string)) :
  length drawn = length ps ->
  (fun r => (Card r, Orientation r)) <$> zip_with (reading_record T) ps drawn = drawn.
Proof.
  revert ps. induction drawn as [|[card o] drawn IH]; intros [|p ps] Hlen; try done.
  simpl. f_equal. apply IH. simpl in Hlen. lia.
Qed.

(** X1. [create_reading] returns a reading exactly when the layout name
    maps to an object with a ["positions"] member of as many labels as there
    are drawn pairs; the reading is then the positions zipped with the
    pairs. *)
Theorem create_reading_succeeds_iff (T : Tables) (drawn : list (string * string))
    (name : string) (reading : list CardReading) :
  create_reading T drawn name = inr reading <->
  exists layout ps,
    spread_layouts T !! name = Some layout /\
    layout !! "positions" = Some ps /\
    length drawn = length ps /\
    reading = zip_with (reading_record T) ps drawn.
Proof.
  split.
  - apply create_reading_inv.
  - intros (layout & ps & Hl & Hp & Hlen & ->).
    rewrite (create_reading_known T drawn name layout ps Hl Hp).
    rewrite Hlen, Nat.eqb_refl. simpl negb. cbv iota.
    by rewrite reading_loop_spec by (simpl; lia).
Qed.

(** X2. Whatever the tables and the arguments, a failure of
    [create_reading] is one of three: the "is not defined" [ValueError]
    (name absent or mapped to an empty object), [KeyError('positions')]
    (object without that member), or the "requires exactly" [ValueError]
    (count differs).  The indexing [layout['positions'][i]] never raises. *)
Theorem create_reading_failures (T : Tables) (drawn : list (string * string))
    (name : string) (e : exn) :
  create_reading T drawn name = inl e ->
  (e = ValueError ("Layout '" +:+ name +:+ "' is not defined.") /\
   (spread_layouts T !! name = None \/ spread_layouts T !! name = Some ∅)) \/
  (e = KeyError "positions" /\
   exists layout, spread_layouts T !! name = Some layout /\ layout <> ∅ /\
                  layout !! "positions" = None) \/
  (exists layout ps,
      spread_layouts T !! name = Some layout /\
      layout !! "positions" = Some ps /\
      length drawn <> length ps /\
      e = ValueError (name +:+ " layout requires exactly "
                      +:+ pretty (length ps) +:+ " cards.")).
Proof.
  unfold create_reading, layout_positions.
  destruct (spread_layouts T !! name) as [layout|] eqn:Hl.
  - destruct (decide (layout = ∅)) as [->|Hne].
    + rewrite bool_decide_eq_true_2 by done. intros [= <-]. left. auto.
    + rewrite bool_decide_eq_false_2 by done.
      destruct (layout !! "positions") as [ps|] eqn:Hp.
      * destruct (length drawn =? length ps) eqn:Hlen; simpl negb; cbv iota.
        -- apply Nat.eqb_eq in Hlen.
           rewrite reading_loop_spec by (simpl; lia). done.
        -- apply Nat.eqb_neq in Hlen. intros [= <-].
           right. right. by exists layout, ps.
      * intros [= <-]. right. left. split; [done|]. by exists layout.
  - intros [= <-]. left. auto.
Qed.

Lemma create_reading_failures_witness :
  create_reading ex_odd_tables ex_drawn "untitled" = inl (KeyError "positions") /\
  exists layout, spread_layouts ex_odd_tables !! "untitled" = Some layout /\
                 layout <> ∅ /\ layout !! "positions" = None.
Proof.
  assert (H : create_reading ex_odd_tables ex_drawn "untitled"
              = inl (KeyError "positions")) by (vm_compute; reflexivity).
  split; [exact H|].
  destruct (create_reading_failures ex_odd_tables ex_drawn "untitled" _ H)
    as [[Habs _]|[[_ Hk]|(layout & ps & _ & _ & _ & Habs)]].
  - discriminate Habs.
  - exact Hk.
  - discriminate Habs.
Defined.

(** X3. A layout name that maps to an empty object is reported as not
    defined, like an absent one. *)
Theorem create_reading_empty_layout (T : Tables) (drawn : list (string * string))
    (name : string) :
  spread_layouts T !! name = Some ∅ ->
  create_reading T drawn name
  = inl (ValueError ("Layout '" +:+ name +:+ "' is not defined.")).
Proof.
  intros Hl. unfold create_reading. rewrite Hl.
  by rewrite bool_decide_eq_true_2.
Qed.

Lemma create_reading_empty_layout_witness :
  spread_layouts ex_odd_tables !! "blank" = Some ∅ /\
  create_reading ex_odd_tables ex_drawn "blank"
  = inl (ValueError "Layout 'blank' is not defined.").
Proof.
  assert (H : spread_layouts ex_odd_tables !! "blank" = Some ∅)
    by (vm_compute; reflexivity).
  split; [exact H|].
  exact (create_reading_empty_layout ex_odd_tables ex_drawn "blank" H).
Defined.

(** X4. A non-empty layout object without a ["positions"] member makes
    [create_reading] raise [KeyError('positions')], whatever is drawn. *)
Theorem create_reading_no_positions (T : Tables) (drawn : list (string * string))
    (name : string) (layout : gmap string (list string)) :
  spread_layouts T !! name = Some layout ->
  layout <> ∅ ->
  layout !! "positions" = None ->
  create_reading T drawn name = inl (KeyError "positions").
Proof.
  intros Hl Hne Hp. unfold create_reading, layout_positions.
  by rewrite Hl, bool_decide_eq_false_2, Hp.
Qed.

Lemma create_reading_no_positions_witness :
  spread_layouts ex_odd_tables !! "untitled" = Some {[ "title" := ["Untitled"] ]} /\
  ({[ "title" := ["Untitled"] ]} : gmap string (list string)) <> ∅ /\
  ({[ "title" := ["Untitled"] ]} : gmap string (list string)) !! "positions" = None /\
  create_reading ex_odd_tables [] "untitled" = inl (KeyError "positions").
Proof.
  assert (H1 : spread_layouts ex_odd_tables !! "untitled"
               = Some {[ "title" := ["Untitled"] ]}) by (vm_compute; reflexivity).
  assert (H2 : ({[ "title" := ["Untitled"] ]} : gmap string (list string)) <> ∅).
  { intros Habs. apply (f_equal (fun m => m !! "title")) in Habs.
    vm_compute in Habs. discriminate. }
  assert (H3 : ({[ "title" := ["Untitled"] ]} : gmap string (list string))
               !! "positions" = None) by (vm_compute; reflexivity).
  split; [exact H1|]. split; [exact H2|]. split; [exact H3|].
  exact (create_reading_no_positions ex_odd_tables [] "untitled" _ H1 H2 H3).
Defined.

(** X5. A reading keeps its inputs: the [Position] fields are the
    layout's labels in order, and the [Card] and [Orientation] fields are
    the drawn pairs in order. *)
Theorem create_reading_projections (T : Tables) (drawn : list (string * string))
    (name : string) (reading : list CardReading) :
  create_reading T drawn name = inr reading ->
  (fun r => (Card r, Orientation r)) <$> reading = drawn /\
  exists layout,
    spread_layouts T !! name = Some layout /\
    layout !! "positions" = Some (Position <$> reading).
Proof.
  intros Hr. apply create_reading_inv in Hr
    as (layout & ps & Hl & Hp & Hlen & ->).
  split; [by apply reading_record_pairs|].
  exists layout. split; [done|].
  by rewrite reading_record_positions.
Qed.

Lemma create_reading_projections_witness :
  create_reading ex_tables ex_drawn "three_card"
  = inr (zip_with (reading_record ex_tables) ["Past"; "Present"; "Future"] ex_drawn) /\
  (fun r => (Card r, Orientation r))
    <$> zip_with (reading_record ex_tables) ["Past"; "Present"; "Future"] ex_drawn
  = ex_drawn.
Proof.
  assert (H : create_reading ex_tables ex_drawn "three_card"
              = inr (zip_with (reading_record ex_tables)
                       ["Past"; "Present"; "Future"] ex_drawn))
    by (vm_compute; reflexivity).
  split; [exact H|].
  exact (proj1 (create_reading_projections ex_tables ex_drawn "three_card" _ H)).
Defined.

(** ** [draw_cards] *)

Lemma list_remove_sublist (x : string) (l l' : list string) :
  list_remove x l = Some l' -> l' `sublist_of` l.
Proof.
  revert l'. induction l as [|y l IH]; intros l'; simpl; [done|].
  destruct (decide (y = x)).
  - intros [= ->]. by apply sublist_cons.
  - destruct (list_remove x l) as [l0|]; simpl; [|done].
    intros [= <-]. apply sublist_skip. by apply IH.
Qed.

(** One iteration on a non-empty deck, for every number of iterations left
    and every local list at once. *)
Lemma draw_loop_step_uniform (entropy : nat -> nat) (w : World) :
  deck (self w) <> [] ->
  exists card o d',
    list_remove card (deck (self w)) = Some d' /\
    forall k acc,
      draw_loop entropy (S k) acc w
      = draw_loop entropy k (acc ++ [(card, o)])
          {| self := {| deck := d';
                        drawn_cards := drawn_cards (self w) ++ [(card, o)] |};
             stdout := stdout w;
             cursor := S (S (cursor w)) |}.
Proof.
  intros Hne.
  destruct (secrets_choice_nonempty entropy (deck (self w)) w Hne) as (card & Hin & Hc).
  destruct (list_remove_elem card _ Hin) as (d' & Hrm & _).
  set (w1 := {| self := {| deck := d'; drawn_cards := drawn_cards (self w) |};
                stdout := stdout w; cursor := S (cursor w) |}).
  destruct (secrets_choice_nonempty entropy ["Upright"; "Reversed"] w1 ltac:(done))
    as (o & _ & Hc2).
  exists card, o, d'. split; [done|]. intros k acc.
  simpl. unfold bind at 1. unfold get_deck at 1.
  destruct (deck (self w)) as [|c d] eqn:Hd; [done|].
  change (length (c :: d) =? 0) with false. cbv iota.
  unfold bind at 1. rewrite Hc.
  unfold bind at 1. unfold deck_remove, bind at 1, get_deck. simpl.
  rewrite Hd, Hrm. unfold set_deck. simpl.
  fold w1. unfold bind at 1. rewrite Hc2.
  unfold bind at 1. unfold drawn_cards_append, set_drawn_cards. simpl.
  done.
Qed.

Lemma draw_loop_deck_sublist (entropy : nat -> nat) (k : nat) :
  forall (acc : list (string * string)) (w : World),
    deck (self (draw_loop entropy k acc w).2) `sublist_of` deck (self w).
Proof.
  induction k as [|k IH]; intros acc w; [done|].
  destruct (decide (deck (self w) = [])) as [Hd|Hd].
  - by rewrite (draw_loop_empty entropy k acc w Hd).
  - destruct (draw_loop_step_uniform entropy w Hd) as (card & o & d' & Hrm & Hstep).
    rewrite Hstep. etrans; [apply IH|]. simpl.
    by eapply list_remove_sublist.
Qed.

(** The local list only collects: starting the loop with [acc] gives
    [acc] followed by what it gives when started with the empty list. *)
Lemma draw_loop_acc (entropy : nat -> nat) (k : nat) :
  forall (acc : list (string * string)) (w : World),
    draw_loop entropy k acc w
    = match draw_loop entropy k [] w with
      | (inr r, w') => (inr (acc ++ r), w')
      | (inl e, w') => (inl e, w')
      end.
Proof.
  induction k as [|k IH]; intros acc w.
  - simpl. unfold ret. by rewrite app_nil_r.
  - destruct (decide (deck (self w) = [])) as [Hd|Hd].
    + rewrite !(draw_loop_empty entropy k _ w Hd). by rewrite app_nil_r.
    + destruct (draw_loop_step_uniform entropy w Hd) as (card & o & d' & _ & Hstep).
      rewrite !Hstep. rewrite (IH (acc ++ _)), (IH ([] ++ _)).
      destruct (draw_loop entropy k [] _) as [[e|r] w']; [done|].
      by rewrite <- app_assoc.
Qed.

Lemma draw_loop_split (entropy : nat -> nat) (a b : nat) :
  forall (acc : list (string * string)) (w : World),
    a <= length (deck (self w)) ->
    draw_loop entropy (a + b) acc w
    = match draw_loop entropy a acc w with
      | (inr r, w1) => draw_loop entropy b r w1
      | (inl e, w1) => (inl e, w1)
      end.
Proof.
  induction a as [|a IH]; intros acc w Hlen; [done|].
  assert (Hd : deck (self w) <> []).
  { intros Hd. rewrite Hd in Hlen. simpl in Hlen. lia. }
  destruct (draw_loop_step_uniform entropy w Hd) as (card & o & d' & Hrm & Hstep).
  change (S a + b) with (S (a + b)). rewrite !Hstep.
  apply IH. simpl. apply list_remove_length in Hrm. lia.
Qed.

(** X6. In any state and for any [n], [draw_cards(n)] returns normally
    with [min(max(n,0), len(deck))] pairs; the returned cards together with
    the cards left are the cards the deck held; the cards left keep their
    order; and the history grows by exactly the returned pairs. *)
Theorem draw_cards_conserves (entropy : nat -> nat) (w : World) (n : Z) :
  exists res w',
    draw_cards entropy n w = (inr res, w') /\
    length res = min (Z.to_nat n) (length (deck (self w))) /\
    deck (self w) ≡ₚ res.*1 ++ deck (self w') /\
    deck (self w') `sublist_of` deck (self w) /\
    drawn_cards (self w') = drawn_cards (self w) ++ res.
Proof.
  destruct (draw_cards_spec entropy n w) as (res & w' & Hr & Hl & Hp & Hh & _).
  exists res, w'. repeat split; try done.
  pose proof (draw_loop_deck_sublist entropy (Z.to_nat n) [] w) as Hs.
  unfold draw_cards in Hr. by rewrite Hr in Hs.
Qed.

(** X7. [draw_cards(n)] prints "No more cards to draw." once when [n]
    exceeds the number of cards left and prints nothing otherwise (not even
    when it takes the last card), and it reads the random source twice per
    returned pair. *)
Theorem draw_cards_output (entropy : nat -> nat) (w : World) (n : Z) :
  exists res w',
    draw_cards entropy n w = (inr res, w') /\
    ((n <= Z.of_nat (length (deck (self w))))%Z -> stdout w' = stdout w) /\
    ((Z.of_nat (length (deck (self w))) < n)%Z ->
     stdout w' = stdout w ++ ["No more cards to draw."]) /\
    cursor w' = 2 * length res + cursor w.
Proof.
  destruct (draw_cards_spec entropy n w) as (res & w' & Hr & _ & _ & _ & _ & Hs & Hc).
  exists res, w'. split; [done|]. split; [|split; [|done]].
  - intros Hn. rewrite Hs.
    replace (length (deck (self w)) <? Z.to_nat n) with false
      by (symmetry; apply Nat.ltb_ge; lia).
    by rewrite app_nil_r.
  - intros Hn. rewrite Hs.
    by replace (length (deck (self w)) <? Z.to_nat n) with true
      by (symmetry; apply Nat.ltb_lt; lia).
Qed.

Lemma draw_cards_output_witness :
  (2 <= Z.of_nat (length (deck (self ex_world))))%Z /\
  (draw_cards ex_entropy 2 ex_world).1
  = inr [("The Sun", "Upright"); ("Death", "Upright")] /\
  stdout (draw_cards ex_entropy 2 ex_world).2 = stdout ex_world.
Proof.
  assert (H : (2 <= Z.of_nat (length (deck (self ex_world))))%Z) by (simpl; lia).
  split; [exact H|].
  destruct (draw_cards_output ex_entropy ex_world 2) as (res & w' & Hr & Hle & _).
  rewrite Hr. split; [|exact (Hle H)].
  assert (Hv : (draw_cards ex_entropy 2 ex_world).1
               = inr [("The Sun", "Upright"); ("Death", "Upright")])
    by (vm_compute; reflexivity).
  rewrite Hr in Hv. exact Hv.
Defined.

(** X8. A draw can be split: for [a, b >= 0] with [a] at most the number
    of cards left, [draw_cards(a + b)] returns what [draw_cards(a)] followed
    by [draw_cards(b)] return, concatenated, and leaves the same state. *)
Theorem draw_cards_split (entropy : nat -> nat) (w : World) (a b : Z) :
  (0 <= a)%Z -> (0 <= b)%Z ->
  (a <= Z.of_nat (length (deck (self w))))%Z ->
  draw_cards entropy (a + b) w
  = (r1 <-- draw_cards entropy a ;;
     r2 <-- draw_cards entropy b ;;
     ret (r1 ++ r2)) w.
Proof.
  intros Ha Hb Hlen. unfold draw_cards, bind, ret.
  rewrite Z2Nat.inj_add by done.
  rewrite draw_loop_split by lia.
  destruct (draw_loop entropy (Z.to_nat a) [] w) as [[e|r1] w1]; [done|].
  rewrite draw_loop_acc.
  by destruct (draw_loop entropy (Z.to_nat b) [] w1) as [[e|r2] w2].
Qed.

Lemma draw_cards_split_witness :
  (0 <= 1)%Z /\ (0 <= 4)%Z /\
  (1 <= Z.of_nat (length (deck (self ex_world))))%Z /\
  draw_cards ex_entropy (1 + 4) ex_world
  = (r1 <-- draw_cards ex_entropy 1 ;;
     r2 <-- draw_cards ex_entropy 4 ;;
     ret (r1 ++ r2)) ex_world.
Proof.
  assert (H1 : (0 <= 1)%Z) by lia.
  assert (H2 : (0 <= 4)%Z) by lia.
  assert (H3 : (1 <= Z.of_nat (length (deck (self ex_world))))%Z) by (simpl; lia).
  split; [exact H1|]. split; [exact H2|]. split; [exact H3|].
  exact (draw_cards_split ex_entropy ex_world 1 4 H1 H2 H3).
Defined.

(** The bound on [a] in X8 is needed: past exhaustion the two calls print
    the notice twice, the single call once. *)
Example draw_cards_split_past_exhaustion :
  stdout (draw_cards ex_entropy (3 + 1) ex_world).2 = ["No more cards to draw."] /\
  stdout ((r1 <-- draw_cards ex_entropy 3 ;;
           r2 <-- draw_cards ex_entropy 1 ;;
           ret (r1 ++ r2)) ex_world).2
  = ["No more cards to draw."; "No more cards to draw."].
Proof. split; reflexivity. Qed.

(** X9. When the deck holds no card twice, the cards [draw_cards] returns
    are pairwise distinct, were in the deck before the call and are not in
    it afterwards, and the deck still holds no card twice. *)
Theorem draw_cards_moves_cards (entropy : nat -> nat) (w : World) (n : Z) :
  NoDup (deck (self w)) ->
  exists res w',
    draw_cards entropy n w = (inr res, w') /\
    NoDup res.*1 /\
    NoDup (deck (self w')) /\
    forall c, c ∈ res.*1 -> c ∈ deck (self w) /\ c ∉ deck (self w').
Proof.
  intros Hnd.
  destruct (draw_cards_spec entropy n w) as (res & w' & Hr & _ & Hp & _).
  exists res, w'. split; [done|].
  rewrite Hp in Hnd. apply NoDup_app in Hnd as (Hres & Hdisj & Hdeck).
  repeat split; try done.
  - rewrite Hp. apply elem_of_app. by left.
  - by apply Hdisj.
Qed.

Lemma draw_cards_moves_cards_witness :
  NoDup (deck (self ex_world)) /\
  exists res w',
    draw_cards ex_entropy 1 ex_world = (inr res, w') /\
    NoDup res.*1 /\
    NoDup (deck (self w')) /\
    forall c, c ∈ res.*1 -> c ∈ deck (self ex_world) /\ c ∉ deck (self w').
Proof.
  assert (H : NoDup (deck (self ex_world))).
  { apply (bool_decide_unpack _). vm_compute. exact I. }
  split; [exact H|].
  exact (draw_cards_moves_cards ex_entropy ex_world 1 H).
Defined.

(** X10. On a deck just reset, [draw_cards(n)] with [n >= 78] deals the
    whole deck: every one of the 78 cards is returned exactly once, the deck
    is left empty, and for [n = 78] nothing is printed. *)
Theorem draw_cards_deals_whole_deck (entropy : nat -> nat) (w : World) (n : Z) :
  (78 <= n)%Z ->
  exists res w',
    draw_cards entropy n (reset_deck w).2 = (inr res, w') /\
    res.*1 ≡ₚ full_deck /\
    deck (self w') = [] /\
    drawn_cards (self w') = res /\
    (n = 78%Z -> stdout w' = stdout w).
Proof.
  intros Hn.
  destruct (draw_cards_spec entropy n (reset_deck w).2)
    as (res & w' & Hr & Hl & Hp & Hh & _ & Hs & _).
  change (deck (self (reset_deck w).2)) with full_deck in *.
  change (drawn_cards (self (reset_deck w).2)) with (@nil (string * string)) in Hh.
  change (stdout (reset_deck w).2) with (stdout w) in Hs.
  rewrite full_deck_length in *.
  assert (Hlen : length res = 78) by lia.
  assert (Hempty : deck (self w') = []).
  { apply Permutation_length in Hp.
    rewrite length_app, length_fmap, Hlen, full_deck_length in Hp.
    apply length_zero_iff_nil. lia. }
  exists res, w'. rewrite Hempty, app_nil_r in Hp.
  split; [done|]. split; [done|]. split; [done|]. split; [done|].
  intros ->. rewrite Hs. change (78 <? Z.to_nat 78) with false.
  by rewrite app_nil_r.
Qed.

Lemma draw_cards_deals_whole_deck_witness :
  (78 <= 78)%Z /\
  exists res w',
    draw_cards ex_entropy 78 (reset_deck ex_world).2 = (inr res, w') /\
    res.*1 ≡ₚ full_deck /\
    deck (self w') = [] /\
    drawn_cards (self w') = res /\
    (78%Z = 78%Z -> stdout w' = stdout ex_world).
Proof.
  assert (H : (78 <= 78)%Z) by lia.
  split; [exact H|].
  exact (draw_cards_deals_whole_deck ex_entropy ex_world 78 H).
Defined.

(** ** The script *)

Lemma printed_nil (w : World) : printed [] w = w.
Proof. destruct w as [s o c]. unfold printed. simpl. by rewrite app_nil_r. Qed.

Lemma printed_app (l1 l2 : list string) (w : World) :
  printed l2 (printed l1 w) = printed (l1 ++ l2) w.
Proof. unfold printed. simpl. by rewrite app_assoc. Qed.

Lemma print_printed (line : string) (w : World) :
  print line w = (inr tt, printed [line] w).
Proof. reflexivity. Qed.

Lemma print_card_reading_spec (r : CardReading) (w : World) :
  print_card_reading r w = (inr tt, printed (reading_lines r) w).
Proof.
  unfold print_card_reading, bind.
  rewrite !print_printed, !printed_app. reflexivity.
Qed.

Lemma print_reading_spec (reading : list CardReading) :
  forall w : World,
    print_reading reading w = (inr tt, printed (reading ≫= reading_lines) w).
Proof.
  induction reading as [|r reading IH]; intros w.
  - simpl. unfold ret. by rewrite printed_nil.
  - simpl. unfold bind at 1. rewrite print_card_reading_spec, IH.
    by rewrite printed_app.
Qed.

Lemma reading_lines_length (reading : list CardReading) :
  length (reading ≫= reading_lines) = 7 * length reading.
Proof.
  induction reading as [|r reading IH]; [done|].
  change (length ((r :: reading) ≫= reading_lines))
    with (7 + length (reading ≫= reading_lines)).
  rewrite IH. simpl. lia.
Qed.

(** The script up to the call of [create_reading], for a layout object
    with positions. *)
Lemma main_script_known (T : Tables) (entropy : nat -> nat) (w : World)
    (name question : string) (layout : gmap string (list string)) (ps : list string) :
  spread_layouts T !! name = Some layout ->
  layout !! "positions" = Some ps ->
  exists drawn w1,
    draws_from (reset_deck w).2 (length ps) drawn w1 /\
    main_script T entropy name question w
    = if negb (length drawn =? length ps)
      then (inl (ValueError (name +:+ " layout requires exactly "
                             +:+ pretty (length ps) +:+ " cards.")), w1)
      else (inr tt, printed (reading_header question
                             :: (zip_with (reading_record T) ps drawn ≫= reading_lines)) w1).
Proof.
  intros Hl Hp.
  destruct (draw_cards_spec entropy (Z.of_nat (length ps)) (reset_deck w).2)
    as (drawn & w1 & Hr & Hd).
  rewrite Nat2Z.id in Hd.
  exists drawn, w1. split; [exact Hd|].
  unfold main_script, TarotSession_init. unfold bind at 1.
  change (reset_deck w) with (inr (B:=unit) (A:=exn) tt, (reset_deck w).2).
  cbv iota beta.
  rewrite Hl, (known_layout_nonempty _ _ Hp).
  unfold layout_positions. rewrite Hp.
  unfold bind at 1. rewrite Hr.
  rewrite (create_reading_known T drawn name layout ps Hl Hp).
  destruct (length drawn =? length ps) eqn:Hlen; cbn [negb].
  - apply Nat.eqb_eq in Hlen.
    rewrite reading_loop_spec by (simpl; lia). cbn [drop app].
    unfold bind. rewrite print_printed, print_reading_spec.
    by rewrite printed_app.
  - reflexivity.
Qed.

(** X11. For a layout of at most 78 positions the script ends normally:
    it draws one card per position from a fresh deck, all different, and
    prints the header followed by the seven lines of each record, the records
    being the positions zipped with the drawn pairs. *)
Theorem main_script_prints_reading (T : Tables) (entropy : nat -> nat) (w : World)
    (name question : string) (layout : gmap string (list string)) (ps : list string) :
  spread_layouts T !! name = Some layout ->
  layout !! "positions" = Some ps ->
  length ps <= 78 ->
  exists drawn w',
    main_script T entropy name question w = (inr tt, w') /\
    length drawn = length ps /\
    NoDup drawn.*1 /\
    drawn.*1 ⊆ full_deck /\
    Forall (fun p => p.2 = "Upright" \/ p.2 = "Reversed") drawn /\
    stdout w' = stdout w ++ reading_header question
                  :: (zip_with (reading_record T) ps drawn ≫= reading_lines) /\
    length (stdout w') = length (stdout w) + 1 + 7 * length ps /\
    drawn_cards (self w') = drawn /\
    length (deck (self w')) = 78 - length ps.
Proof.
  intros Hl Hp Hle.
  destruct (main_script_known T entropy w name question layout ps Hl Hp)
    as (drawn & w1 & (Hlen & Hperm & Hh & Ho & Hs & _) & Hmain).
  change (deck (self (reset_deck w).2)) with full_deck in *.
  change (drawn_cards (self (reset_deck w).2)) with (@nil (string * string)) in Hh.
  change (stdout (reset_deck w).2) with (stdout w) in Hs.
  rewrite full_deck_length in *.
  assert (Hlen' : length drawn = length ps) by lia.
  rewrite Hlen', Nat.eqb_refl in Hmain. simpl negb in Hmain. cbv iota in Hmain.
  replace (78 <? length ps) with false in Hs
    by (symmetry; apply Nat.ltb_ge; lia).
  rewrite app_nil_r in Hs.
  pose proof full_deck_NoDup as Hnd. rewrite Hperm in Hnd.
  apply NoDup_app in Hnd as (Hnd & _ & _).
  eexists drawn, _. split; [exact Hmain|]. simpl.
  split; [done|]. split; [done|]. split.
  { intros c Hc. rewrite Hperm. apply elem_of_app. by left. }
  split; [done|]. split; [by rewrite Hs|]. split.
  { rewrite Hs, length_app. simpl.
    rewrite reading_lines_length, length_zip_with. lia. }
  split; [done|].
  apply Permutation_length in Hperm.
  rewrite length_app, length_fmap, full_deck_length in Hperm. lia.
Qed.

Lemma main_script_prints_reading_witness :
  spread_layouts ex_tables !! "three_card" = Some ex_three_card_layout /\
  ex_three_card_layout !! "positions" = Some ["Past"; "Present"; "Future"] /\
  length ["Past"; "Present"; "Future"] <= 78 /\
  exists drawn w',
    main_script ex_tables ex_entropy "three_card" "" ex_world = (inr tt, w') /\
    length drawn = 3 /\
    length (stdout w') = 22 /\
    drawn_cards (self w') = drawn.
Proof.
  assert (H1 : spread_layouts ex_tables !! "three_card" = Some ex_three_card_layout)
    by (vm_compute; reflexivity).
  assert (H2 : ex_three_card_layout !! "positions" = Some ["Past"; "Present"; "Future"])
    by (vm_compute; reflexivity).
  assert (H3 : length ["Past"; "Present"; "Future"] <= 78) by (simpl; lia).
  split; [exact H1|]. split; [exact H2|]. split; [exact H3|].
  destruct (main_script_prints_reading ex_tables ex_entropy ex_world "three_card" ""
              ex_three_card_layout ["Past"; "Present"; "Future"] H1 H2 H3)
    as (drawn & w' & Hm & Hlen & _ & _ & _ & _ & Hout & Hh & _).
  exists drawn, w'. split; [exact Hm|]. split; [exact Hlen|].
  split; [exact Hout | exact Hh].
Defined.

(** X12. For a layout of more than 78 positions the script does not end
    normally: [draw_cards] deals the 78 cards and prints its notice, and
    [create_reading] then raises the "requires exactly" [ValueError]; no
    reading is printed. *)
Theorem main_script_layout_too_long (T : Tables) (entropy : nat -> nat) (w : World)
    (name question : string) (layout : gmap string (list string)) (ps : list string) :
  spread_layouts T !! name = Some layout ->
  layout !! "positions" = Some ps ->
  78 < length ps ->
  exists w',
    main_script T entropy name question w
    = (inl (ValueError (name +:+ " layout requires exactly "
                        +:+ pretty (length ps) +:+ " cards.")), w') /\
    stdout w' = stdout w ++ ["No more cards to draw."] /\
    deck (self w') = [] /\
    length (drawn_cards (self w')) = 78.
Proof.
  intros Hl Hp Hlt.
  destruct (main_script_known T entropy w name question layout ps Hl Hp)
    as (drawn & w1 & (Hlen & Hperm & Hh & _ & Hs & _) & Hmain).
  change (deck (self (reset_deck w).2)) with full_deck in *.
  change (drawn_cards (self (reset_deck w).2)) with (@nil (string * string)) in Hh.
  change (stdout (reset_deck w).2) with (stdout w) in Hs.
  rewrite full_deck_length in *.
  assert (Hlen' : length drawn = 78) by lia.
  replace (length drawn =? length ps) with false in Hmain
    by (symmetry; apply Nat.eqb_neq; lia).
  simpl negb in Hmain. cbv iota in Hmain.
  replace (78 <? length ps) with true in Hs
    by (symmetry; apply Nat.ltb_lt; lia).
  exists w1. split; [exact Hmain|]. split; [exact Hs|]. split.
  - apply Permutation_length in Hperm.
    rewrite length_app, length_fmap, full_deck_length in Hperm.
    apply length_zero_iff_nil. lia.
  - rewrite Hh. simpl. exact Hlen'.
Qed.

Lemma main_script_layout_too_long_witness :
  spread_layouts ex_odd_tables !! "everything"
  = Some {[ "positions" := replicate 80 "Card" ]} /\
  ({[ "positions" := replicate 80 "Card" ]} : gmap string (list string)) !! "positions"
  = Some (replicate 80 "Card") /\
  78 < length (replicate 80 "Card") /\
  exists w',
    main_script ex_odd_tables ex_entropy "everything" "" ex_world
    = (inl (ValueError "everything layout requires exactly 80 cards."), w') /\
    stdout w' = stdout ex_world ++ ["No more cards to draw."].
Proof.
  assert (H1 : spread_layouts ex_odd_tables !! "everything"
               = Some {[ "positions" := replicate 80 "Card" ]})
    by (vm_compute; reflexivity).
  assert (H2 : ({[ "positions" := replicate 80 "Card" ]} : gmap string (list string))
               !! "positions" = Some (replicate 80 "Card"))
    by (vm_compute; reflexivity).
  assert (H3 : 78 < length (replicate 80 "Card")) by (vm_compute; lia).
  split; [exact H1|]. split; [exact H2|]. split; [exact H3|].
  destruct (main_script_layout_too_long ex_odd_tables ex_entropy ex_world "everything" ""
              _ _ H1 H2 H3) as (w' & Hm & Hs & _).
  exists w'. split; [exact Hm | exact Hs].
Defined.

(** X13. For a layout name that is absent or maps to an empty object the
    script prints "Layout '<name>' is not defined." and ends normally: the
    session is fresh, no card is drawn and the random source is not read. *)
Theorem main_script_undefined_layout (T : Tables) (entropy : nat -> nat) (w : World)
    (name question : string) :
  spread_layouts T !! name = None \/ spread_layouts T !! name = Some ∅ ->
  main_script T entropy name question w
  = (inr tt, {| self := fresh_session;
                stdout := stdout w ++ ["Layout '" +:+ name +:+ "' is not defined."];
                cursor := cursor w |}).
Proof.
  intros [Hl|Hl]; unfold main_script, TarotSession_init, bind; simpl; rewrite Hl.
  - reflexivity.
  - by rewrite bool_decide_eq_true_2.
Qed.

Lemma main_script_undefined_layout_witness :
  (spread_layouts ex_odd_tables !! "blank" = None \/
   spread_layouts ex_odd_tables !! "blank" = Some ∅) /\
  main_script ex_odd_tables ex_entropy "blank" "Will it rain?" ex_world
  = (inr tt, {| self := fresh_session;
                stdout := stdout ex_world ++ ["Layout 'blank' is not defined."];
                cursor := cursor ex_world |}).
Proof.
  assert (H : spread_layouts ex_odd_tables !! "blank" = None \/
              spread_layouts ex_odd_tables !! "blank" = Some ∅)
    by (right; vm_compute; reflexivity).
  split; [exact H|].
  exact (main_script_undefined_layout ex_odd_tables ex_entropy ex_world
           "blank" "Will it rain?" H).
Defined.

(** ** What the random source can produce *)

(** X14. Every card left in the deck can be the next one drawn, in either
    orientation: for each such card and orientation some outcome of the
    random source makes [draw_cards(1)] return exactly that pair. *)
Theorem draw_cards_any_card (w : World) (card orientation : string) :
  card ∈ deck (self w) ->
  orientation = "Upright" \/ orientation = "Reversed" ->
  exists entropy, (draw_cards entropy 1 w).1 = inr [(card, orientation)].
Proof.
  intros Hin Ho.
  destruct (list_remove_elem card _ Hin) as (d' & Hrm & _).
  apply list_elem_of_lookup_1 in Hin as [i Hi].
  pose proof (lookup_lt_Some _ _ _ Hi) as Hlt.
  set (oi := if decide (orientation = "Upright") then 0 else 1).
  exists (fun j => if j =? cursor w then i else oi).
  unfold draw_cards. change (Z.to_nat 1) with 1. simpl draw_loop.
  unfold bind at 1. unfold get_deck at 1.
  destruct (deck (self w)) as [|c d] eqn:Hd; [done|].
  change (length (c :: d) =? 0) with false. cbv iota.
  unfold bind at 1. unfold secrets_choice at 1.
  rewrite Nat.eqb_refl, (Nat.mod_small i) by exact Hlt. rewrite Hi.
  unfold bind at 1. unfold deck_remove, bind at 1, get_deck.
  cbn [self]. rewrite Hd, Hrm. unfold set_deck at 1.
  unfold bind at 1. unfold secrets_choice at 1. cbn [cursor].
  replace (S (cursor w) =? cursor w) with false
    by (symmetry; apply Nat.eqb_neq; lia).
  subst oi. destruct Ho as [-> | ->].
  - rewrite decide_True by done. reflexivity.
  - rewrite decide_False by done. reflexivity.
Qed.

Lemma draw_cards_any_card_witness :
  "The Sun" ∈ deck (self ex_world) /\
  ("Reversed" = "Upright" \/ "Reversed" = "Reversed") /\
  exists entropy, (draw_cards entropy 1 ex_world).1 = inr [("The Sun", "Reversed")].
Proof.
  assert (H1 : "The Sun" ∈ deck (self ex_world)).
  { simpl. apply list_elem_of_further, list_elem_of_here. }
  assert (H2 : "Reversed" = "Upright" \/ "Reversed" = "Reversed") by (right; reflexivity).
  split; [exact H1|]. split; [exact H2|].
  exact (draw_cards_any_card ex_world "The Sun" "Reversed" H1 H2).
Defined.
